(** * Concrete ML: the k-nearest-neighbours wrapper and the quantization contract

    Part one embeds [src/concrete/ml/sklearn/neighbors.py]: the attributes of
    a [KNeighborsClassifier], its constructor, [dump_dict] and [load_dict].
    The later parts model the quantizer and embed the dataset helpers of
    [tests/sklearn/test_linear_models.py]. *)

From Stdlib Require Import ZArith List Lia Reals Lra.
From stdpp Require Import gmap strings list fin_maps.

(* ===================================================================== *)
(** ** Python values and exceptions *)
(* ===================================================================== *)

Module Py.

(** The values stored in attributes and in the metadata mapping.  Mutable
    Python objects (quantizers, arrays, the ONNX graph, lists and dicts)
    are held by reference, so copying a value copies the reference. *)
Inductive value : Type :=
  | VNone
  | VBool (b : bool)
  | VInt (z : Z)
  | VStr (s : string)
  | VClass (qualname : string)
  | VRef (addr : N).

(** [v is None] *)
Definition is_none (v : value) : bool :=
  match v with VNone => true | _ => false end.

Inductive exn : Type :=
  | AssertionError (msg : string)
  | KeyError (key : string).

Inductive result (A : Type) : Type :=
  | Ok (a : A)
  | Raise (e : exn).
Arguments Ok {A} a.
Arguments Raise {A} e.

#[global] Instance result_ret : MRet result := fun A a => Ok a.

#[global] Instance result_bind : MBind result := fun A B k r =>
  match r with
  | Ok a => k a
  | Raise e => Raise e
  end.

(** [d[key]] on a dict with string keys *)
Definition getitem (d : gmap string value) (key : string) : result value :=
  match d !! key with
  | Some v => Ok v
  | None => Raise (KeyError key)
  end.

End Py.

Import Py.

(* ===================================================================== *)
(** ** [KNeighborsClassifier] (neighbors.py) *)
(* ===================================================================== *)

Module KNN.

(** The attributes kept by [SklearnKNeighborsClassifierMixin] that
    [dump_dict] reads and [load_dict] assigns. *)
Record Mixin : Type := {
  n_bits : value;
  sklearn_model : value;
  _is_fitted : value;
  _is_compiled : value;
  input_quantizers : value;
  _weight_quantizer : value;
  _q_X_fit_quantizer : value;
  _q_X_fit : value;
  output_quantizers : value;
  onnx_model_ : value;
  post_processing_params : value
}.

(** An instance: the attributes of the mixin and the eight attributes that
    [__init__] assigns, in the order it assigns them. *)
Record KNeighborsClassifier : Type := {
  mixin :> Mixin;
  n_neighbors : value;
  algorithm : value;
  leaf_size : value;
  p : value;
  metric : value;
  metric_params : value;
  n_jobs : value;
  weights : value
}.

(** Attribute assignment [obj.attr = v], one function per attribute. *)
Definition mixin_set_n_bits (v : value) (b : Mixin) : Mixin :=
  {|
    n_bits := v; sklearn_model := sklearn_model b;
    _is_fitted := _is_fitted b; _is_compiled := _is_compiled b;
    input_quantizers := input_quantizers b;
    _weight_quantizer := _weight_quantizer b;
    _q_X_fit_quantizer := _q_X_fit_quantizer b; _q_X_fit := _q_X_fit b;
    output_quantizers := output_quantizers b; onnx_model_ := onnx_model_ b;
    post_processing_params := post_processing_params b |}.

Definition mixin_set_sklearn_model (v : value) (b : Mixin) : Mixin :=
  {|
    n_bits := n_bits b; sklearn_model := v; _is_fitted := _is_fitted b;
    _is_compiled := _is_compiled b; input_quantizers := input_quantizers b;
    _weight_quantizer := _weight_quantizer b;
    _q_X_fit_quantizer := _q_X_fit_quantizer b; _q_X_fit := _q_X_fit b;
    output_quantizers := output_quantizers b; onnx_model_ := onnx_model_ b;
    post_processing_params := post_processing_params b |}.

Definition mixin_set__is_fitted (v : value) (b : Mixin) : Mixin :=
  {|
    n_bits := n_bits b; sklearn_model := sklearn_model b; _is_fitted := v;
    _is_compiled := _is_compiled b; input_quantizers := input_quantizers b;
    _weight_quantizer := _weight_quantizer b;
    _q_X_fit_quantizer := _q_X_fit_quantizer b; _q_X_fit := _q_X_fit b;
    output_quantizers := output_quantizers b; onnx_model_ := onnx_model_ b;
    post_processing_params := post_processing_params b |}.

Definition mixin_set__is_compiled (v : value) (b : Mixin) : Mixin :=
  {|
    n_bits := n_bits b; sklearn_model := sklearn_model b;
    _is_fitted := _is_fitted b; _is_compiled := v;
    input_quantizers := input_quantizers b;
    _weight_quantizer := _weight_quantizer b;
    _q_X_fit_quantizer := _q_X_fit_quantizer b; _q_X_fit := _q_X_fit b;
    output_quantizers := output_quantizers b; onnx_model_ := onnx_model_ b;
    post_processing_params := post_processing_params b |}.

Definition mixin_set_input_quantizers (v : value) (b : Mixin) : Mixin :=
  {|
    n_bits := n_bits b; sklearn_model := sklearn_model b;
    _is_fitted := _is_fitted b; _is_compiled := _is_compiled b;
    input_quantizers := v; _weight_quantizer := _weight_quantizer b;
    _q_X_fit_quantizer := _q_X_fit_quantizer b; _q_X_fit := _q_X_fit b;
    output_quantizers := output_quantizers b; onnx_model_ := onnx_model_ b;
    post_processing_params := post_processing_params b |}.

Definition mixin_set__weight_quantizer (v : value) (b : Mixin) : Mixin :=
  {|
    n_bits := n_bits b; sklearn_model := sklearn_model b;
    _is_fitted := _is_fitted b; _is_compiled := _is_compiled b;
    input_quantizers := input_quantizers b; _weight_quantizer := v;
    _q_X_fit_quantizer := _q_X_fit_quantizer b; _q_X_fit := _q_X_fit b;
    output_quantizers := output_quantizers b; onnx_model_ := onnx_model_ b;
    post_processing_params := post_processing_params b |}.

Definition mixin_set__q_X_fit_quantizer (v : value) (b : Mixin) : Mixin :=
  {|
    n_bits := n_bits b; sklearn_model := sklearn_model b;
    _is_fitted := _is_fitted b; _is_compiled := _is_compiled b;
    input_quantizers := input_quantizers b;
    _weight_quantizer := _weight_quantizer b; _q_X_fit_quantizer := v;
    _q_X_fit := _q_X_fit b; output_quantizers := output_quantizers b;
    onnx_model_ := onnx_model_ b;
    post_processing_params := post_processing_params b |}.

Definition mixin_set__q_X_fit (v : value) (b : Mixin) : Mixin :=
  {|
    n_bits := n_bits b; sklearn_model := sklearn_model b;
    _is_fitted := _is_fitted b; _is_compiled := _is_compiled b;
    input_quantizers := input_quantizers b;
    _weight_quantizer := _weight_quantizer b;
    _q_X_fit_quantizer := _q_X_fit_quantizer b; _q_X_fit := v;
    output_quantizers := output_quantizers b; onnx_model_ := onnx_model_ b;
    post_processing_params := post_processing_params b |}.

Definition mixin_set_output_quantizers (v : value) (b : Mixin) : Mixin :=
  {|
    n_bits := n_bits b; sklearn_model := sklearn_model b;
    _is_fitted := _is_fitted b; _is_compiled := _is_compiled b;
    input_quantizers := input_quantizers b;
    _weight_quantizer := _weight_quantizer b;
    _q_X_fit_quantizer := _q_X_fit_quantizer b; _q_X_fit := _q_X_fit b;
    output_quantizers := v; onnx_model_ := onnx_model_ b;
    post_processing_params := post_processing_params b |}.

Definition mixin_set_onnx_model_ (v : value) (b : Mixin) : Mixin :=
  {|
    n_bits := n_bits b; sklearn_model := sklearn_model b;
    _is_fitted := _is_fitted b; _is_compiled := _is_compiled b;
    input_quantizers := input_quantizers b;
    _weight_quantizer := _weight_quantizer b;
    _q_X_fit_quantizer := _q_X_fit_quantizer b; _q_X_fit := _q_X_fit b;
    output_quantizers := output_quantizers b; onnx_model_ := v;
    post_processing_params := post_processing_params b |}.

Definition mixin_set_post_processing_params (v : value) (b : Mixin) : Mixin :=
  {|
    n_bits := n_bits b; sklearn_model := sklearn_model b;
    _is_fitted := _is_fitted b; _is_compiled := _is_compiled b;
    input_quantizers := input_quantizers b;
    _weight_quantizer := _weight_quantizer b;
    _q_X_fit_quantizer := _q_X_fit_quantizer b; _q_X_fit := _q_X_fit b;
    output_quantizers := output_quantizers b; onnx_model_ := onnx_model_ b;
    post_processing_params := v |}.

Definition set_n_bits (v : value) (o : KNeighborsClassifier) : KNeighborsClassifier :=
  {|
    mixin := mixin_set_n_bits v o; n_neighbors := n_neighbors o;
    algorithm := algorithm o; leaf_size := leaf_size o; p := p o;
    metric := metric o; metric_params := metric_params o; n_jobs := n_jobs o;
    weights := weights o |}.

Definition set_sklearn_model (v : value) (o : KNeighborsClassifier) : KNeighborsClassifier :=
  {|
    mixin := mixin_set_sklearn_model v o; n_neighbors := n_neighbors o;
    algorithm := algorithm o; leaf_size := leaf_size o; p := p o;
    metric := metric o; metric_params := metric_params o; n_jobs := n_jobs o;
    weights := weights o |}.

Definition set__is_fitted (v : value) (o : KNeighborsClassifier) : KNeighborsClassifier :=
  {|
    mixin := mixin_set__is_fitted v o; n_neighbors := n_neighbors o;
    algorithm := algorithm o; leaf_size := leaf_size o; p := p o;
    metric := metric o; metric_params := metric_params o; n_jobs := n_jobs o;
    weights := weights o |}.

Definition set__is_compiled (v : value) (o : KNeighborsClassifier) : KNeighborsClassifier :=
  {|
    mixin := mixin_set__is_compiled v o; n_neighbors := n_neighbors o;
    algorithm := algorithm o; leaf_size := leaf_size o; p := p o;
    metric := metric o; metric_params := metric_params o; n_jobs := n_jobs o;
    weights := weights o |}.

Definition set_input_quantizers (v : value) (o : KNeighborsClassifier) : KNeighborsClassifier :=
  {|
    mixin := mixin_set_input_quantizers v o; n_neighbors := n_neighbors o;
    algorithm := algorithm o; leaf_size := leaf_size o; p := p o;
    metric := metric o; metric_params := metric_params o; n_jobs := n_jobs o;
    weights := weights o |}.

Definition set__weight_quantizer (v : value) (o : KNeighborsClassifier) : KNeighborsClassifier :=
  {|
    mixin := mixin_set__weight_quantizer v o; n_neighbors := n_neighbors o;
    algorithm := algorithm o; leaf_size := leaf_size o; p := p o;
    metric := metric o; metric_params := metric_params o; n_jobs := n_jobs o;
    weights := weights o |}.

Definition set__q_X_fit_quantizer (v : value) (o : KNeighborsClassifier) : KNeighborsClassifier :=
  {|
    mixin := mixin_set__q_X_fit_quantizer v o; n_neighbors := n_neighbors o;
    algorithm := algorithm o; leaf_size := leaf_size o; p := p o;
    metric := metric o; metric_params := metric_params o; n_jobs := n_jobs o;
    weights := weights o |}.

Definition set__q_X_fit (v : value) (o : KNeighborsClassifier) : KNeighborsClassifier :=
  {|
    mixin := mixin_set__q_X_fit v o; n_neighbors := n_neighbors o;
    algorithm := algorithm o; leaf_size := leaf_size o; p := p o;
    metric := metric o; metric_params := metric_params o; n_jobs := n_jobs o;
    weights := weights o |}.

Definition set_output_quantizers (v : value) (o : KNeighborsClassifier) : KNeighborsClassifier :=
  {|
    mixin := mixin_set_output_quantizers v o; n_neighbors := n_neighbors o;
    algorithm := algorithm o; leaf_size := leaf_size o; p := p o;
    metric := metric o; metric_params := metric_params o; n_jobs := n_jobs o;
    weights := weights o |}.

Definition set_onnx_model_ (v : value) (o : KNeighborsClassifier) : KNeighborsClassifier :=
  {|
    mixin := mixin_set_onnx_model_ v o; n_neighbors := n_neighbors o;
    algorithm := algorithm o; leaf_size := leaf_size o; p := p o;
    metric := metric o; metric_params := metric_params o; n_jobs := n_jobs o;
    weights := weights o |}.

Definition set_post_processing_params (v : value) (o : KNeighborsClassifier) : KNeighborsClassifier :=
  {|
    mixin := mixin_set_post_processing_params v o;
    n_neighbors := n_neighbors o; algorithm := algorithm o;
    leaf_size := leaf_size o; p := p o; metric := metric o;
    metric_params := metric_params o; n_jobs := n_jobs o;
    weights := weights o |}.

Definition set_n_neighbors (v : value) (o : KNeighborsClassifier) : KNeighborsClassifier :=
  {|
    mixin := mixin o; n_neighbors := v; algorithm := algorithm o;
    leaf_size := leaf_size o; p := p o; metric := metric o;
    metric_params := metric_params o; n_jobs := n_jobs o;
    weights := weights o |}.

Definition set_algorithm (v : value) (o : KNeighborsClassifier) : KNeighborsClassifier :=
  {|
    mixin := mixin o; n_neighbors := n_neighbors o; algorithm := v;
    leaf_size := leaf_size o; p := p o; metric := metric o;
    metric_params := metric_params o; n_jobs := n_jobs o;
    weights := weights o |}.

Definition set_leaf_size (v : value) (o : KNeighborsClassifier) : KNeighborsClassifier :=
  {|
    mixin := mixin o; n_neighbors := n_neighbors o; algorithm := algorithm o;
    leaf_size := v; p := p o; metric := metric o;
    metric_params := metric_params o; n_jobs := n_jobs o;
    weights := weights o |}.

Definition set_p (v : value) (o : KNeighborsClassifier) : KNeighborsClassifier :=
  {|
    mixin := mixin o; n_neighbors := n_neighbors o; algorithm := algorithm o;
    leaf_size := leaf_size o; p := v; metric := metric o;
    metric_params := metric_params o; n_jobs := n_jobs o;
    weights := weights o |}.

Definition set_metric (v : value) (o : KNeighborsClassifier) : KNeighborsClassifier :=
  {|
    mixin := mixin o; n_neighbors := n_neighbors o; algorithm := algorithm o;
    leaf_size := leaf_size o; p := p o; metric := v;
    metric_params := metric_params o; n_jobs := n_jobs o;
    weights := weights o |}.

Definition set_metric_params (v : value) (o : KNeighborsClassifier) : KNeighborsClassifier :=
  {|
    mixin := mixin o; n_neighbors := n_neighbors o; algorithm := algorithm o;
    leaf_size := leaf_size o; p := p o; metric := metric o;
    metric_params := v; n_jobs := n_jobs o; weights := weights o |}.

Definition set_n_jobs (v : value) (o : KNeighborsClassifier) : KNeighborsClassifier :=
  {|
    mixin := mixin o; n_neighbors := n_neighbors o; algorithm := algorithm o;
    leaf_size := leaf_size o; p := p o; metric := metric o;
    metric_params := metric_params o; n_jobs := v; weights := weights o |}.

Definition set_weights (v : value) (o : KNeighborsClassifier) : KNeighborsClassifier :=
  {|
    mixin := mixin o; n_neighbors := n_neighbors o; algorithm := algorithm o;
    leaf_size := leaf_size o; p := p o; metric := metric o;
    metric_params := metric_params o; n_jobs := n_jobs o; weights := v |}.

(** The class attribute [sklearn_model_class] and [type(self).__name__]. *)
Definition sklearn_model_class : value :=
  VClass "sklearn.neighbors.KNeighborsClassifier".

Definition cml_class_name : string := "KNeighborsClassifier".

(** The keys [dump_dict] writes, in the order it writes them. *)
Definition dump_keys : list string :=
  [ "n_bits"; "sklearn_model"; "_is_fitted"; "_is_compiled";
    "input_quantizers"; "_weight_quantizer"; "_q_X_fit_quantizer";
    "_q_X_fit"; "output_quantizers"; "onnx_model_";
    "post_processing_params"; "cml_dumped_class_name";
    "sklearn_model_class"; "n_neighbors"; "algorithm"; "weights";
    "leaf_size"; "p"; "metric"; "metric_params"; "n_jobs" ].

Section Methods.

(** [SklearnKNeighborsClassifierMixin.__init__(n_bits)] and
    [_is_not_fitted_error_message()] are defined in [base.py]; the class
    only calls them, so they are parameters here. *)
Variable super_init : value -> Mixin.
Variable _is_not_fitted_error_message : KNeighborsClassifier -> string.

Definition __init__
    (n_bits n_neighbors weights algorithm leaf_size p metric metric_params
     n_jobs : value) : KNeighborsClassifier :=
  {| mixin := super_init n_bits;
     n_neighbors := n_neighbors;
     algorithm := algorithm;
     leaf_size := leaf_size;
     p := p;
     metric := metric;
     metric_params := metric_params;
     n_jobs := n_jobs;
     weights := weights |}.

(** [KNeighborsClassifier()]: every argument at its default. *)
Definition default_instance : KNeighborsClassifier :=
  __init__ (VInt 8) (VInt 5) (VStr "uniform") (VStr "auto") (VInt 30)
    (VInt 2) (VStr "minkowski") VNone VNone.

(** [dump_dict(self)]: the outcome together with [self] afterwards. *)
Definition dump_dict (self : KNeighborsClassifier)
    : result (gmap string value) * KNeighborsClassifier :=
  if is_none (_weight_quantizer self) then
    (Raise (AssertionError (_is_not_fitted_error_message self)), self)
  else
    let metadata : gmap string value := ∅ in
    (* Concrete ML *)
    let metadata := <["n_bits" := n_bits self]> metadata in
    let metadata := <["sklearn_model" := sklearn_model self]> metadata in
    let metadata := <["_is_fitted" := _is_fitted self]> metadata in
    let metadata := <["_is_compiled" := _is_compiled self]> metadata in
    let metadata := <["input_quantizers" := input_quantizers self]> metadata in
    let metadata := <["_weight_quantizer" := _weight_quantizer self]> metadata in
    let metadata :=
      <["_q_X_fit_quantizer" := _q_X_fit_quantizer self]> metadata in
    let metadata := <["_q_X_fit" := _q_X_fit self]> metadata in
    let metadata :=
      <["output_quantizers" := output_quantizers self]> metadata in
    let metadata := <["onnx_model_" := onnx_model_ self]> metadata in
    let metadata :=
      <["post_processing_params" := post_processing_params self]> metadata in
    let metadata :=
      <["cml_dumped_class_name" := VStr cml_class_name]> metadata in
    (* Scikit-learn *)
    let metadata := <["sklearn_model_class" := sklearn_model_class]> metadata in
    let metadata := <["n_neighbors" := n_neighbors self]> metadata in
    let metadata := <["algorithm" := algorithm self]> metadata in
    let metadata := <["weights" := weights self]> metadata in
    let metadata := <["leaf_size" := leaf_size self]> metadata in
    let metadata := <["p" := p self]> metadata in
    let metadata := <["metric" := metric self]> metadata in
    let metadata := <["metric_params" := metric_params self]> metadata in
    let metadata := <["n_jobs" := n_jobs self]> metadata in
    (Ok metadata, self).

(** [load_dict(cls, metadata)] *)
Definition load_dict (metadata : gmap string value)
    : result KNeighborsClassifier :=
  (* Instantiate the model *)
  let obj := default_instance in
  (* Concrete-ML *)
  v ← getitem metadata "n_bits"; let obj := set_n_bits v obj in
  v ← getitem metadata "sklearn_model"; let obj := set_sklearn_model v obj in
  v ← getitem metadata "_is_fitted"; let obj := set__is_fitted v obj in
  v ← getitem metadata "_is_compiled"; let obj := set__is_compiled v obj in
  v ← getitem metadata "input_quantizers";
  let obj := set_input_quantizers v obj in
  v ← getitem metadata "output_quantizers";
  let obj := set_output_quantizers v obj in
  v ← getitem metadata "_weight_quantizer";
  let obj := set__weight_quantizer v obj in
  v ← getitem metadata "_q_X_fit_quantizer";
  let obj := set__q_X_fit_quantizer v obj in
  v ← getitem metadata "_q_X_fit"; let obj := set__q_X_fit v obj in
  v ← getitem metadata "onnx_model_"; let obj := set_onnx_model_ v obj in
  v ← getitem metadata "post_processing_params";
  let obj := set_post_processing_params v obj in
  (* Scikit-Learn *)
  v ← getitem metadata "n_neighbors"; let obj := set_n_neighbors v obj in
  v ← getitem metadata "weights"; let obj := set_weights v obj in
  v ← getitem metadata "algorithm"; let obj := set_algorithm v obj in
  v ← getitem metadata "p"; let obj := set_p v obj in
  v ← getitem metadata "metric"; let obj := set_metric v obj in
  v ← getitem metadata "metric_params"; let obj := set_metric_params v obj in
  v ← getitem metadata "n_jobs"; let obj := set_n_jobs v obj in
  mret obj.

(** [load_dict(m.dump_dict())] *)
Definition load_dump (m : KNeighborsClassifier) : result KNeighborsClassifier :=
  metadata ← fst (dump_dict m); load_dict metadata.

End Methods.

(** The state of [KNeighborsClassifier(leaf_size=40)] after [fit]: the
    other arguments keep their defaults and the fitted attributes are
    references to the objects that [fit] stored. *)
Definition fitted_attrs : Mixin :=
  {| n_bits := VInt 8; sklearn_model := VRef 1; _is_fitted := VBool true;
     _is_compiled := VBool false; input_quantizers := VRef 2;
     _weight_quantizer := VRef 3; _q_X_fit_quantizer := VRef 4;
     _q_X_fit := VRef 5; output_quantizers := VRef 6;
     onnx_model_ := VRef 7; post_processing_params := VRef 8 |}.

Definition leaf40 : KNeighborsClassifier :=
  {| mixin := fitted_attrs; n_neighbors := VInt 5; algorithm := VStr "auto";
     leaf_size := VInt 40; p := VInt 2; metric := VStr "minkowski";
     metric_params := VNone; n_jobs := VNone; weights := VStr "uniform" |}.

(** A mixin constructor that leaves every attribute but [n_bits] unset, and
    a message, to run the methods on concrete instances. *)
Definition blank_attrs (n_bits : value) : Mixin :=
  {| n_bits := n_bits; sklearn_model := VNone; _is_fitted := VBool false;
     _is_compiled := VBool false; input_quantizers := VNone;
     _weight_quantizer := VNone; _q_X_fit_quantizer := VNone;
     _q_X_fit := VNone; output_quantizers := VNone; onnx_model_ := VNone;
     post_processing_params := VNone |}.

Definition not_fitted_message (self : KNeighborsClassifier) : string :=
  "KNeighborsClassifier is not fitted".

End KNN.

(* ===================================================================== *)
(** ** The quantizer *)
(* ===================================================================== *)

Module Quantizer.

(** The quantizer of the specification (sections 3 and 4.1).  The module
    that implements it is not part of the sources at hand, so its
    definitions follow the specification's words; reals are [R]. *)

(** Modelled from the spec: the role tag of a Quantizer (input / weight /
    intermediate / output). *)
Inductive role : Type := Input | Weight | Intermediate | Output.

(** Modelled from the spec: QuantizationParams, { bit_width, scale,
    zero_point, is_signed, is_symmetric }. *)
Record QuantizationParams : Type := {
  bit_width : Z;
  scale : R;
  zero_point : Z;
  is_signed : bool;
  is_symmetric : bool
}.

(** Modelled from the spec: a Quantizer owns exactly one QuantizationParams
    and a role tag. *)
Record Quantizer : Type := {
  params :> QuantizationParams;
  role_tag : role
}.

(** Modelled from the spec: the clipping range, [[0, 2^bit_width - 1]]
    unsigned, [[-2^(bit_width-1), 2^(bit_width-1) - 1]] signed. *)
Definition qmin (p : QuantizationParams) : Z :=
  if is_signed p then (- 2 ^ (bit_width p - 1))%Z else 0%Z.

Definition qmax (p : QuantizationParams) : Z :=
  if is_signed p then (2 ^ (bit_width p - 1) - 1)%Z
  else (2 ^ bit_width p - 1)%Z.

Definition clip (lo hi z : Z) : Z := Z.max lo (Z.min hi z).

(** Modelled from the spec: an integer representable in [bit_width] bits. *)
Definition representable (p : QuantizationParams) (q : Z) : Prop :=
  if is_signed p
  then (- 2 ^ (bit_width p - 1) <= q < 2 ^ (bit_width p - 1))%Z
  else (0 <= q < 2 ^ bit_width p)%Z.

(** Modelled from the spec: quantize(x) returns round(x/scale) + zero_point,
    clipped.  The specification does not say how [round] breaks ties, so
    the rounding is a parameter. *)
Definition quantize (round : R -> Z) (p : QuantizationParams) (x : R) : Z :=
  clip (qmin p) (qmax p) (round (x / scale p)%R + zero_point p).

(** Modelled from the spec: dequantize(q) returns (q - zero_point) * scale. *)
Definition dequantize (p : QuantizationParams) (q : Z) : R :=
  (IZR (q - zero_point p) * scale p)%R.

(** Modelled from the spec: the data model asks for a bit width between 1
    and 32 and a positive scale; this is what calibration establishes. *)
Definition well_formed (p : QuantizationParams) : Prop :=
  (1 <= bit_width p <= 32)%Z /\ (0 < scale p)%R.

(** Modelled from the spec: the calibrated range.  QuantizationParams keeps
    no minimum or maximum, so the range of a calibrated quantizer is the
    interval its integers cover, from [dequantize qmin] to
    [dequantize qmax]; its width is (2^bit_width - 1) * scale, the max - min
    of the calibration. *)
Definition in_range (p : QuantizationParams) (x : R) : Prop :=
  (dequantize p (qmin p) <= x <= dequantize p (qmax p))%R.

(** A rounding to a nearest integer, whatever it does at ties. *)
Definition nearest (round : R -> Z) : Prop :=
  forall y : R, (Rabs (IZR (round y) - y) <= / 2)%R.

(** One such rounding: ties go up. *)
Definition round_half_up (y : R) : Z := up (y - / 2)%R.

(** An unsigned 8-bit quantizer with scale 1/2 and zero point 3. *)
Definition params0 : QuantizationParams :=
  {| bit_width := 8; scale := (/ 2)%R; zero_point := 3; is_signed := false;
     is_symmetric := false |}.

End Quantizer.

(* ===================================================================== *)
(** ** The keys that [load_dict] reads *)
(* ===================================================================== *)

Module KNN_keys.

(** The keys [load_dict] subscripts [metadata] with, in the order of its
    statements. *)
Definition load_keys : list string :=
  [ "n_bits"; "sklearn_model"; "_is_fitted"; "_is_compiled";
    "input_quantizers"; "output_quantizers"; "_weight_quantizer";
    "_q_X_fit_quantizer"; "_q_X_fit"; "onnx_model_";
    "post_processing_params"; "n_neighbors"; "weights"; "algorithm"; "p";
    "metric"; "metric_params"; "n_jobs" ].

(** The first of [keys] that the mapping lacks: the subscription at which a
    sequence of [metadata[key]] raises [KeyError]. *)
Fixpoint first_missing (metadata : gmap string value) (keys : list string)
  : option string :=
  match keys with
  | [] => None
  | key :: rest =>
    match metadata !! key with
    | Some _ => first_missing metadata rest
    | None => Some key
    end
  end.

(** The fitted instance of [leaf40] with the default [leaf_size]. *)
Definition leaf30 : KNN.KNeighborsClassifier :=
  KNN.set_leaf_size (VInt 30) KNN.leaf40.

End KNN_keys.

(* ===================================================================== *)
(** ** The datasets of the linear-model tests (test_linear_models.py) *)
(* ===================================================================== *)

Module TestLinearModels.

(** The estimator classes the test module imports; [make_regression] and
    the two [get_datasets_] functions accept any class, so any other class
    is [OtherEstimator], told apart by its name.  [==] and [in] on classes
    compare identities. *)
Inductive estimator : Type :=
  | GammaRegressor
  | LinearRegression
  | LinearSVC
  | LinearSVR
  | LogisticRegression
  | PoissonRegressor
  | TweedieRegressor
  | OtherEstimator (name : string).

#[global] Instance estimator_eq_dec : EqDecision estimator.
Proof. solve_decision. Defined.

(** [model.__name__] *)
Definition __name__ (model : estimator) : string :=
  match model with
  | GammaRegressor => "GammaRegressor"
  | LinearRegression => "LinearRegression"
  | LinearSVC => "LinearSVC"
  | LinearSVR => "LinearSVR"
  | LogisticRegression => "LogisticRegression"
  | PoissonRegressor => "PoissonRegressor"
  | TweedieRegressor => "TweedieRegressor"
  | OtherEstimator name => name
  end.

Definition regression_models : list estimator :=
  [LinearRegression; LinearSVR; PoissonRegressor; GammaRegressor;
   TweedieRegressor].

Definition classifier_models : list estimator :=
  [LogisticRegression; LinearSVC].

(** A numpy array: its shape and its entries in row-major order.  The
    entries are floats, taken as reals. *)
Record ndarray : Type := { shape : list nat; data : list R }.

(** [numpy.abs(a)] and [a + 1], entry by entry. *)
Definition numpy_abs (a : ndarray) : ndarray :=
  {| shape := shape a; data := map Rabs (data a) |}.

Definition add_scalar (a : ndarray) (c : R) : ndarray :=
  {| shape := shape a; data := map (fun v => (v + c)%R) (data a) |}.

Section MakeRegression.

(** [sklearn.datasets.make_regression(n_samples, n_features, n_informative,
    n_targets, noise, random_state)] is a library function, and
    [numpy.random.randint(0, 2**15)] a draw; the generator is a parameter
    and the draw an argument. *)
Variable sklearn_make_regression :
  forall (n_samples n_features n_informative n_targets : nat) (noise : Z)
         (random_state : Z), ndarray * ndarray.

Definition make_regression (random_state : Z) (model : estimator)
    (n_features n_informative n_targets : nat) (noise : Z)
  : ndarray * ndarray :=
  let '(generated_x, generated_y) :=
    sklearn_make_regression 200 n_features n_informative n_targets noise
      random_state in
  (* PoissonRegressor can only handle non-negative target values. *)
  let generated_y :=
    if decide (model = PoissonRegressor) then numpy_abs generated_y
    (* GammaRegressor and most TweedieRegressor models can only handle
       (strictly) positive target values. *)
    else if decide (model ∈ [GammaRegressor; TweedieRegressor])
    then add_scalar (numpy_abs generated_y) 1
    else generated_y in
  (generated_x, generated_y).

End MakeRegression.

(** The [lambda] of a [pytest.param]: a call of [make_regression] or of
    sklearn's [make_classification], with the arguments the source writes;
    an argument the source leaves out is [None] here, for the callee's
    default. *)
Inductive loader : Type :=
  | MakeRegression (model : estimator) (n_features n_informative
                    n_targets : nat) (noise : Z)
  | MakeClassification (n_samples : nat) (class_sep : Z) (n_features : nat)
      (n_clusters_per_class n_classes : option nat) (random_state : Z).

(** [pytest.param(model, lambda: ..., id=...)] *)
Record param : Type := { alg : estimator; load_data : loader; id : string }.

#[global] Instance loader_eq_dec : EqDecision loader.
Proof. solve_decision. Defined.

#[global] Instance param_eq_dec : EqDecision param.
Proof. solve_decision. Defined.

(** The defaults of [make_regression]: [n_features=10], [n_informative=10],
    [n_targets=1], [noise=0]. *)
Definition regression_loader (model : estimator)
    (n_features n_informative n_targets : option nat) (noise : option Z)
  : loader :=
  MakeRegression model (default 10%nat n_features)
    (default 10%nat n_informative) (default 1%nat n_targets)
    (default 0%Z noise).

(** [get_datasets_regression(model)] *)
Definition get_datasets_regression (model : estimator) : list param :=
  let regression_datasets :=
    [ {| alg := model;
         load_data := regression_loader model (Some 10%nat) None None None;
         id := "make_regression_features_10_" +:+ __name__ model |};
      {| alg := model;
         load_data :=
           regression_loader model (Some 10%nat) None None (Some 2%Z);
         id := "make_regression_features_10_noise_2_" +:+ __name__ model |};
      {| alg := model;
         load_data :=
           regression_loader model (Some 14%nat) (Some 14%nat) None None;
         id := "make_regression_features_14_informative_14_"
               +:+ __name__ model |} ] in
  (* LinearSVR, PoissonRegressor, GammaRegressor and TweedieRegressor do
     not support multi targets *)
  if decide (model ∉ [LinearSVR; PoissonRegressor; GammaRegressor;
                      TweedieRegressor])
  then
    regression_datasets ++
    [ {| alg := model;
         load_data :=
           regression_loader model (Some 14%nat) (Some 14%nat)
             (Some 2%nat) None;
         id := "make_regression_features_14_informative_14_targets_2_"
               +:+ __name__ model |} ]
  else regression_datasets.

(** [get_datasets_classification(model)] *)
Definition get_datasets_classification (model : estimator) : list param :=
  [ {| alg := model;
       load_data := MakeClassification 200 2 10 None None 42;
       id := "make_classification_features_10_" +:+ __name__ model |};
    {| alg := model;
       load_data := MakeClassification 200 2 14 None None 42;
       id := "make_classification_features_14_informative_14_"
             +:+ __name__ model |};
    {| alg := model;
       load_data := MakeClassification 200 2 14 (Some 1%nat) (Some 4%nat) 42;
       id := "make_classification_features_14_informative_14_classes_4_"
             +:+ __name__ model |} ].

(** One turn of the two module-level loops: the datasets of a model are
    added to [multiple_models_datasets], the first of them to
    [models_datasets]; [datasets[0]] on an empty list raises [IndexError],
    which is [None] here. *)
Definition add_model (get_datasets : estimator -> list param)
    (acc : option (list param * list param)) (model : estimator)
  : option (list param * list param) :=
  '(multiple_models_datasets, models_datasets) ← acc;
  let datasets := get_datasets model in
  first ← datasets !! 0%nat;
  Some (multiple_models_datasets ++ datasets, models_datasets ++ [first]).

(** The module-level lists after the two loops. *)
Definition module_datasets : option (list param * list param) :=
  let acc := Some ([], []) in
  let acc := foldl (add_model get_datasets_regression) acc regression_models in
  foldl (add_model get_datasets_classification) acc classifier_models.

Definition multiple_models_datasets : list param :=
  default [] (fst <$> module_datasets).

Definition models_datasets : list param :=
  default [] (snd <$> module_datasets).

(** The number of targets a loader asks for, where it says. *)
Definition loader_n_targets (l : loader) : option nat :=
  match l with
  | MakeRegression _ _ _ n_targets _ => Some n_targets
  | MakeClassification _ _ _ _ _ _ => None
  end.

End TestLinearModels.

(* ===================================================================== *)
(** * Properties of [dump_dict] and [load_dict] *)
(* ===================================================================== *)

Module KNN_facts.
Import KNN.

Lemma is_none_true v : is_none v = true <-> v = VNone.
Proof. destruct v; simpl; split; congruence. Qed.

Lemma is_none_false v : is_none v = false <-> v <> VNone.
Proof. destruct v; simpl; split; congruence. Qed.

Lemma bind_Ok {A B} (r : result A) (k : A -> result B) (b : B) :
  r ≫= k = Ok b -> exists a, r = Ok a /\ k a = Ok b.
Proof. destruct r as [a|e]; simpl; [eauto | discriminate]. Qed.

Lemma dump_keys_NoDup : NoDup dump_keys.
Proof. apply (bool_decide_unpack _). vm_compute. reflexivity. Qed.

Ltac map_lookups := unfold getitem; simplify_map_eq.

Section Facts.

Variable super_init : value -> Mixin.
Variable msg : KNeighborsClassifier -> string.

(** What a fitted instance dumps: the mapping loads back to the instance
    with [leaf_size] reset, it holds the eight scikit-learn hyperparameters
    under their names, and its keys are those of [dump_keys]. *)
Lemma dump_dict_fitted (self : KNeighborsClassifier) :
  _weight_quantizer self <> VNone ->
  exists md, dump_dict msg self = (Ok md, self) /\
    load_dict super_init md = Ok (set_leaf_size (VInt 30) self) /\
    (md !! "n_neighbors" = Some (n_neighbors self) /\
     md !! "weights" = Some (weights self) /\
     md !! "algorithm" = Some (algorithm self) /\
     md !! "p" = Some (p self) /\
     md !! "metric" = Some (metric self) /\
     md !! "metric_params" = Some (metric_params self) /\
     md !! "n_jobs" = Some (n_jobs self) /\
     md !! "leaf_size" = Some (leaf_size self)) /\
    dom md = list_to_set dump_keys.
Proof.
  intros Hq. apply is_none_false in Hq. unfold dump_dict. rewrite Hq.
  eexists. split; [reflexivity|]. split; [|split].
  - unfold load_dict. map_lookups. destruct self as [[] ]. reflexivity.
  - repeat split; map_lookups; reflexivity.
  - apply set_eq. intros k. rewrite elem_of_list_to_set.
    rewrite !dom_insert_L, dom_empty_L. unfold dump_keys.
    rewrite !elem_of_union, !elem_of_singleton, !elem_of_cons.
    rewrite elem_of_empty, elem_of_nil. tauto.
Qed.

Lemma dump_dict_unfitted (self : KNeighborsClassifier) :
  _weight_quantizer self = VNone ->
  dump_dict msg self = (Raise (AssertionError (msg self)), self).
Proof. intros H. unfold dump_dict. rewrite H. reflexivity. Qed.

Lemma dump_dict_Ok_fitted (self : KNeighborsClassifier) md :
  fst (dump_dict msg self) = Ok md -> _weight_quantizer self <> VNone.
Proof.
  intros H Hq. rewrite (dump_dict_unfitted _ Hq) in H. discriminate.
Qed.

(** Whatever the mapping holds, a loaded instance has [leaf_size] 30. *)
Lemma load_dict_leaf_size md obj :
  load_dict super_init md = Ok obj -> leaf_size obj = VInt 30.
Proof.
  unfold load_dict. intros H.
  repeat (apply bind_Ok in H; destruct H as [? [_ H]]).
  injection H as <-. reflexivity.
Qed.

Lemma load_dump_fitted (m : KNeighborsClassifier) :
  _weight_quantizer m <> VNone ->
  load_dump super_init msg m = Ok (set_leaf_size (VInt 30) m).
Proof.
  intros Hq. destruct (dump_dict_fitted m Hq) as (md & Hd & Hl & _).
  unfold load_dump. rewrite Hd. exact Hl.
Qed.

(** C10. [dump_dict] leaves the instance as it was; it raises the
    assertion failure carrying the not-fitted message exactly when
    [_weight_quantizer] is [None]; otherwise it returns a mapping whose keys
    are exactly the 21 names of [dump_keys]. *)
Theorem dump_dict_assertion_or_21_keys (self : KNeighborsClassifier) :
  snd (dump_dict msg self) = self /\
  (_weight_quantizer self = VNone <->
   fst (dump_dict msg self) = Raise (AssertionError (msg self))) /\
  (_weight_quantizer self <> VNone <->
   exists md, fst (dump_dict msg self) = Ok md /\
     dom md = list_to_set dump_keys /\ size (dom md) = 21%nat).
Proof.
  destruct (is_none (_weight_quantizer self)) eqn:E.
  - apply is_none_true in E. rewrite (dump_dict_unfitted self E). simpl.
    split; [reflexivity|]. split; [tauto|].
    split; [congruence | intros (md & H & _); discriminate].
  - apply is_none_false in E.
    destruct (dump_dict_fitted self E) as (md & Hd & _ & _ & Hk).
    rewrite Hd. simpl. split; [reflexivity|]. split.
    + split; [congruence | discriminate].
    + split; [|tauto]. intros _. exists md. split; [reflexivity|].
      split; [exact Hk|]. rewrite Hk.
      rewrite size_list_to_set by exact dump_keys_NoDup. reflexivity.
Qed.

(** C2. For a fitted instance [m], [load_dict] applied to the mapping that
    [dump_dict] returns copies [n_neighbors], [weights], [algorithm], [p],
    [metric], [metric_params] and [n_jobs] from the mapping, and leaves
    [leaf_size] at the constructor default 30, although the mapping holds
    [m]'s own [leaf_size] under the key "leaf_size". *)
Theorem load_dict_never_assigns_leaf_size (m : KNeighborsClassifier) md :
  fst (dump_dict msg m) = Ok md ->
  exists obj, load_dict super_init md = Ok obj /\
    (md !! "n_neighbors" = Some (n_neighbors obj) /\
     md !! "weights" = Some (weights obj) /\
     md !! "algorithm" = Some (algorithm obj) /\
     md !! "p" = Some (p obj) /\
     md !! "metric" = Some (metric obj) /\
     md !! "metric_params" = Some (metric_params obj) /\
     md !! "n_jobs" = Some (n_jobs obj)) /\
    (n_neighbors obj = n_neighbors m /\ weights obj = weights m /\
     algorithm obj = algorithm m /\ p obj = p m /\ metric obj = metric m /\
     metric_params obj = metric_params m /\ n_jobs obj = n_jobs m) /\
    md !! "leaf_size" = Some (leaf_size m) /\
    leaf_size obj = VInt 30.
Proof.
  intros Hd. pose proof (dump_dict_Ok_fitted m md Hd) as Hq.
  destruct (dump_dict_fitted m Hq) as (md' & Hd' & Hl & Hk & _).
  rewrite Hd' in Hd. cbn [fst] in Hd. injection Hd as <-.
  exists (set_leaf_size (VInt 30) m). split; [exact Hl|].
  cbn [set_leaf_size n_neighbors weights algorithm p metric metric_params
       n_jobs leaf_size].
  tauto.
Qed.

(** C1. The round trip on the fitted instance built with [leaf_size=40]:
    the loaded instance has [leaf_size] 30, so it is not the dumped one. *)
Theorem load_dump_leaf40_loses_leaf_size :
  exists obj, load_dump super_init msg leaf40 = Ok obj /\
    leaf_size obj = VInt 30 /\ leaf_size leaf40 = VInt 40 /\ obj <> leaf40.
Proof.
  exists (set_leaf_size (VInt 30) leaf40). split.
  - apply load_dump_fitted. discriminate.
  - split; [reflexivity|]. split; [reflexivity|]. discriminate.
Qed.


End Facts.

(** The metadata that [leaf40] dumps. *)
Definition leaf40_metadata : gmap string value :=
  match fst (dump_dict not_fitted_message leaf40) with
  | Ok md => md
  | Raise _ => ∅
  end.

Lemma load_dict_never_assigns_leaf_size_witness :
  fst (dump_dict not_fitted_message leaf40) = Ok leaf40_metadata /\
  exists obj, load_dict blank_attrs leaf40_metadata = Ok obj /\
    (leaf40_metadata !! "n_neighbors" = Some (n_neighbors obj) /\
     leaf40_metadata !! "weights" = Some (weights obj) /\
     leaf40_metadata !! "algorithm" = Some (algorithm obj) /\
     leaf40_metadata !! "p" = Some (p obj) /\
     leaf40_metadata !! "metric" = Some (metric obj) /\
     leaf40_metadata !! "metric_params" = Some (metric_params obj) /\
     leaf40_metadata !! "n_jobs" = Some (n_jobs obj)) /\
    (n_neighbors obj = n_neighbors leaf40 /\ weights obj = weights leaf40 /\
     algorithm obj = algorithm leaf40 /\ p obj = p leaf40 /\
     metric obj = metric leaf40 /\
     metric_params obj = metric_params leaf40 /\
     n_jobs obj = n_jobs leaf40) /\
    leaf40_metadata !! "leaf_size" = Some (leaf_size leaf40) /\
    leaf_size obj = VInt 30.
Proof.
  split; [reflexivity|].
  apply (load_dict_never_assigns_leaf_size blank_attrs not_fitted_message
           leaf40 leaf40_metadata).
  reflexivity.
Defined.

End KNN_facts.

(* ===================================================================== *)
(** * Properties of the quantizer *)
(* ===================================================================== *)

Module Quantizer_facts.
Import Quantizer.
Local Open Scope R_scope.

Lemma round_half_up_nearest : nearest round_half_up.
Proof.
  intros y. unfold round_half_up.
  destruct (archimed (y - / 2)) as [H1 H2].
  apply Rabs_le. lra.
Qed.

Lemma Rabs_le_bounds (a b : R) : Rabs a <= b -> - b <= a <= b.
Proof. unfold Rabs. destruct (Rcase_abs a); lra. Qed.

Lemma nearest_fixes_integers round (n : Z) :
  nearest round -> round (IZR n) = n.
Proof.
  intros Hr. specialize (Hr (IZR n)). apply Rabs_le_bounds in Hr.
  rewrite <- minus_IZR in Hr.
  assert (-1 < IZR (round (IZR n) - n) < 1) as [H1 H2] by lra.
  apply lt_IZR in H1, H2. lia.
Qed.

Lemma nearest_between round (lo hi : Z) (y : R) :
  nearest round -> IZR lo <= y <= IZR hi -> (lo <= round y <= hi)%Z.
Proof.
  intros Hr [Hlo Hhi]. specialize (Hr y). apply Rabs_le_bounds in Hr.
  assert (IZR (lo - 1) < IZR (round y)) as H1
    by (rewrite minus_IZR; lra).
  assert (IZR (round y) < IZR (hi + 1)) as H2
    by (rewrite plus_IZR; lra).
  apply lt_IZR in H1, H2. lia.
Qed.

Lemma qmin_le_qmax p : (1 <= bit_width p)%Z -> (qmin p <= qmax p)%Z.
Proof.
  intros H. unfold qmin, qmax. destruct (is_signed p).
  - assert (0 < 2 ^ (bit_width p - 1))%Z by (apply Z.pow_pos_nonneg; lia). lia.
  - assert (0 < 2 ^ bit_width p)%Z by (apply Z.pow_pos_nonneg; lia). lia.
Qed.

Lemma representable_iff p q :
  representable p q <-> (qmin p <= q <= qmax p)%Z.
Proof. unfold representable, qmin, qmax. destruct (is_signed p); lia. Qed.

Lemma clip_bounds lo hi z : (lo <= hi)%Z -> (lo <= clip lo hi z <= hi)%Z.
Proof. unfold clip. lia. Qed.

Lemma clip_id lo hi z : (lo <= z <= hi)%Z -> clip lo hi z = z.
Proof. unfold clip. lia. Qed.

Section Rounding.
Variable round : R -> Z.
Hypothesis round_nearest : nearest round.

Lemma quantize_unclipped p x :
  well_formed p -> in_range p x ->
  quantize round p x = (round (x / scale p) + zero_point p)%Z.
Proof.
  intros [_ Hs] [Hlo Hhi]. unfold quantize. apply clip_id.
  unfold dequantize in Hlo, Hhi.
  assert (IZR (qmin p - zero_point p) <= x / scale p
          <= IZR (qmax p - zero_point p)) as Hy.
  { split.
    - apply Rmult_le_reg_r with (scale p); [exact Hs|].
      unfold Rdiv. rewrite Rmult_assoc, Rinv_l by lra. lra.
    - apply Rmult_le_reg_r with (scale p); [exact Hs|].
      unfold Rdiv. rewrite Rmult_assoc, Rinv_l by lra. lra. }
  pose proof (nearest_between round _ _ _ round_nearest Hy). lia.
Qed.

(** C3. For a calibrated quantizer and a real [x] within its calibrated
    range, [dequantize (quantize x)] differs from [x] by at most [scale/2],
    hence by at most one [scale] unit. *)
Theorem dequantize_quantize_error p x :
  well_formed p -> in_range p x ->
  Rabs (dequantize p (quantize round p x) - x) <= scale p / 2 /\
  Rabs (dequantize p (quantize round p x) - x) <= scale p.
Proof.
  intros Hp Hx. pose proof Hp as [_ Hs].
  rewrite (quantize_unclipped p x Hp Hx). unfold dequantize.
  replace (round (x / scale p) + zero_point p - zero_point p)%Z
    with (round (x / scale p)) by lia.
  assert (x = x / scale p * scale p) as Hxs
    by (unfold Rdiv; rewrite Rmult_assoc, Rinv_l by lra; lra).
  rewrite Hxs at 2 4.
  rewrite <- Rmult_minus_distr_r, Rabs_mult, (Rabs_pos_eq (scale p)) by lra.
  pose proof (round_nearest (x / scale p)) as Hr.
  assert (Rabs (IZR (round (x / scale p)) - x / scale p) * scale p
          <= / 2 * scale p) by (apply Rmult_le_compat_r; lra).
  lra.
Qed.

Lemma quantize_dequantize_id p (q : Z) :
  well_formed p -> representable p q ->
  (round (dequantize p q / scale p) + zero_point p)%Z = q /\
  quantize round p (dequantize p q) = q.
Proof.
  intros [_ Hs] Hq. apply representable_iff in Hq.
  unfold quantize, dequantize.
  replace (IZR (q - zero_point p) * scale p / scale p)
    with (IZR (q - zero_point p))
    by (unfold Rdiv; rewrite Rmult_assoc, Rinv_r by lra; lra).
  rewrite (nearest_fixes_integers round _ round_nearest).
  split; [lia|]. rewrite clip_id by lia. lia.
Qed.

(** On the grid of the quantizer the round trip through the integers is
    exact as well. *)
Lemma dequantize_quantize_on_grid p (q : Z) :
  well_formed p -> representable p q ->
  dequantize p (quantize round p (dequantize p q)) = dequantize p q.
Proof.
  intros Hp Hq. destruct (quantize_dequantize_id p q Hp Hq) as [_ H].
  rewrite H. reflexivity.
Qed.

(** C4. For a calibrated quantizer and every real [x], [quantize x] is
    [round (x/scale) + zero_point] clipped to the range of the bit width, so
    it is representable in [bit_width] bits; for every representable
    integer [q], [dequantize q] is [(q - zero_point) * scale], and
    quantizing it gives [q] back: no clipping happens there and
    [dequantize] inverts [quantize] exactly. *)
Theorem quantize_dequantize_contract p (x : R) (q : Z) :
  well_formed p -> representable p q ->
  (quantize round p x
   = clip (qmin p) (qmax p) (round (x / scale p) + zero_point p) /\
   (qmin p <= quantize round p x <= qmax p)%Z /\
   representable p (quantize round p x)) /\
  (dequantize p q = IZR (q - zero_point p) * scale p /\
   (round (dequantize p q / scale p) + zero_point p)%Z = q /\
   quantize round p (dequantize p q) = q).
Proof.
  intros Hp Hq. pose proof Hp as [[Hb _] _]. split.
  - split; [reflexivity|].
    assert (qmin p <= quantize round p x <= qmax p)%Z as H
      by apply clip_bounds, qmin_le_qmax, Hb.
    split; [exact H | apply representable_iff, H].
  - split; [reflexivity|]. exact (quantize_dequantize_id p q Hp Hq).
Qed.

End Rounding.

Lemma params0_well_formed : well_formed params0.
Proof.
  unfold well_formed, params0; cbn [bit_width scale]. split; [lia | lra].
Qed.

Lemma params0_in_range : in_range params0 1.
Proof.
  unfold in_range, dequantize, qmin, qmax, params0.
  cbn [bit_width scale zero_point is_signed].
  replace (0 - 3)%Z with (-3)%Z by reflexivity.
  replace (2 ^ 8 - 1 - 3)%Z with 252%Z by reflexivity. lra.
Qed.

Lemma dequantize_quantize_error_witness :
  Rabs (dequantize params0 (quantize round_half_up params0 1) - 1)
    <= scale params0 / 2 /\
  Rabs (dequantize params0 (quantize round_half_up params0 1) - 1)
    <= scale params0.
Proof.
  exact (dequantize_quantize_error round_half_up round_half_up_nearest
           params0 1 params0_well_formed params0_in_range).
Defined.

Lemma params0_representable_5 : representable params0 5.
Proof.
  unfold representable, params0; cbn [bit_width is_signed]. lia.
Qed.

Lemma quantize_dequantize_contract_witness :
  (quantize round_half_up params0 1
   = clip (qmin params0) (qmax params0)
       (round_half_up (1 / scale params0) + zero_point params0) /\
   (qmin params0 <= quantize round_half_up params0 1 <= qmax params0)%Z /\
   representable params0 (quantize round_half_up params0 1)) /\
  (dequantize params0 5 = IZR (5 - zero_point params0) * scale params0 /\
   (round_half_up (dequantize params0 5 / scale params0)
    + zero_point params0)%Z = 5%Z /\
   quantize round_half_up params0 (dequantize params0 5) = 5%Z).
Proof.
  exact (quantize_dequantize_contract round_half_up round_half_up_nearest
           params0 1 5 params0_well_formed params0_representable_5).
Defined.

End Quantizer_facts.

(* ===================================================================== *)
(** * More on [load_dict]: missing keys, unread keys, repeated round trips *)
(* ===================================================================== *)

Module KNN_load_facts.
Import KNN KNN_keys.

Ltac in_load_keys :=
  unfold load_keys;
  repeat first [apply list_elem_of_here | apply list_elem_of_further].

Lemma first_missing_None md keys :
  first_missing md keys = None <-> forall k, k ∈ keys -> is_Some (md !! k).
Proof.
  induction keys as [|key rest IH]; cbn [first_missing].
  - split; [|reflexivity]. intros _ k Hk. apply elem_of_nil in Hk as [].
  - destruct (md !! key) as [v|] eqn:E.
    + rewrite IH. split.
      * intros H k Hk. apply elem_of_cons in Hk as [->|Hk]; [eauto|auto].
      * intros H k Hk. apply H. right. exact Hk.
    + split; [discriminate|]. intros H.
      destruct (H key) as [v Hv]; [left|]. congruence.
Qed.

Lemma first_missing_Some md keys k :
  first_missing md keys = Some k -> k ∈ keys /\ md !! k = None.
Proof.
  induction keys as [|key rest IH]; cbn [first_missing]; [discriminate|].
  destruct (md !! key) as [v|] eqn:E.
  - intros H. destruct (IH H). split; [right|]; assumption.
  - intros [= <-]. split; [left|exact E].
Qed.

Section Facts.

Variable super_init : value -> Mixin.
Variable msg : KNeighborsClassifier -> string.

(** [load_dict] in terms of the first key it does not find. *)
Lemma load_dict_first_missing md :
  match first_missing md load_keys with
  | Some k => load_dict super_init md = Raise (KeyError k)
  | None => exists obj, load_dict super_init md = Ok obj
  end.
Proof.
  unfold load_dict, getitem, load_keys. cbn [first_missing].
  repeat (match goal with
          | |- context [md !! ?k] =>
            destruct (md !! k); cbn [mbind result_bind]; [|reflexivity]
          end).
  eexists. reflexivity.
Qed.

(** Two mappings that agree on the keys of [load_keys] load alike. *)
Lemma load_dict_agree md md' :
  (forall k, k ∈ load_keys -> md !! k = md' !! k) ->
  load_dict super_init md = load_dict super_init md'.
Proof.
  intros H. unfold load_dict, getitem.
  rewrite !(fun k (Hk : k ∈ load_keys) => H k Hk) by in_load_keys.
  reflexivity.
Qed.

(** What a successful [load_dict] found in the mapping. *)
Lemma load_dict_Ok_lookups md obj :
  load_dict super_init md = Ok obj ->
  (md !! "n_bits" = Some (n_bits obj) /\
  md !! "sklearn_model" = Some (sklearn_model obj) /\
  md !! "_is_fitted" = Some (_is_fitted obj) /\
  md !! "_is_compiled" = Some (_is_compiled obj) /\
  md !! "input_quantizers" = Some (input_quantizers obj) /\
  md !! "output_quantizers" = Some (output_quantizers obj) /\
  md !! "_weight_quantizer" = Some (_weight_quantizer obj) /\
  md !! "_q_X_fit_quantizer" = Some (_q_X_fit_quantizer obj) /\
  md !! "_q_X_fit" = Some (_q_X_fit obj) /\
  md !! "onnx_model_" = Some (onnx_model_ obj) /\
  md !! "post_processing_params" = Some (post_processing_params obj)) /\
  (md !! "n_neighbors" = Some (n_neighbors obj) /\
  md !! "weights" = Some (weights obj) /\
  md !! "algorithm" = Some (algorithm obj) /\
  md !! "p" = Some (p obj) /\
  md !! "metric" = Some (metric obj) /\
  md !! "metric_params" = Some (metric_params obj) /\
  md !! "n_jobs" = Some (n_jobs obj)).
Proof.
  unfold load_dict, getitem.
  repeat (match goal with
          | |- context [md !! ?k] =>
            destruct (md !! k); cbn [mbind result_bind]; [|discriminate]
          end).
  intros [= <-]. repeat split.
Qed.

(** What a fitted instance dumps, key by key. *)
Lemma dump_dict_lookups (self : KNeighborsClassifier) :
  _weight_quantizer self <> VNone ->
  exists md, dump_dict msg self = (Ok md, self) /\
    (md !! "n_bits" = Some (n_bits self) /\
     md !! "sklearn_model" = Some (sklearn_model self) /\
     md !! "_is_fitted" = Some (_is_fitted self) /\
     md !! "_is_compiled" = Some (_is_compiled self) /\
     md !! "input_quantizers" = Some (input_quantizers self) /\
     md !! "output_quantizers" = Some (output_quantizers self) /\
     md !! "_weight_quantizer" = Some (_weight_quantizer self) /\
     md !! "_q_X_fit_quantizer" = Some (_q_X_fit_quantizer self) /\
     md !! "_q_X_fit" = Some (_q_X_fit self) /\
     md !! "onnx_model_" = Some (onnx_model_ self) /\
     md !! "post_processing_params" = Some (post_processing_params self)) /\
    (md !! "n_neighbors" = Some (n_neighbors self) /\
     md !! "weights" = Some (weights self) /\
     md !! "algorithm" = Some (algorithm self) /\
     md !! "p" = Some (p self) /\
     md !! "metric" = Some (metric self) /\
     md !! "metric_params" = Some (metric_params self) /\
     md !! "n_jobs" = Some (n_jobs self)) /\
    md !! "leaf_size" = Some (leaf_size self) /\
    md !! "cml_dumped_class_name" = Some (VStr cml_class_name) /\
    md !! "sklearn_model_class" = Some sklearn_model_class.
Proof.
  intros Hq. apply KNN_facts.is_none_false in Hq. unfold dump_dict.
  rewrite Hq. eexists. split; [reflexivity|].
  repeat split; simplify_map_eq; reflexivity.
Qed.

(** [load_dict] raises [KeyError] for the first key, in the order of its
    statements, that the mapping lacks, and nothing else; it returns an
    instance exactly when the mapping has the eighteen keys of [load_keys],
    whatever else the mapping holds. *)
Theorem load_dict_raises_first_missing_key (md : gmap string value) :
  match first_missing md load_keys with
  | Some k =>
    k ∈ load_keys /\ md !! k = None /\
    load_dict super_init md = Raise (KeyError k)
  | None => exists obj, load_dict super_init md = Ok obj
  end /\
  ((exists obj, load_dict super_init md = Ok obj) <->
   forall k, k ∈ load_keys -> is_Some (md !! k)) /\
  (forall s, load_dict super_init md <> Raise (AssertionError s)).
Proof.
  pose proof (load_dict_first_missing md) as H.
  pose proof (first_missing_None md load_keys) as HN.
  destruct (first_missing md load_keys) as [k|] eqn:E.
  - destruct (first_missing_Some _ _ _ E) as [Hk Hm].
    split; [auto|]. split.
    + split.
      * intros [obj Ho]. congruence.
      * intros Hall. destruct (Hall k Hk) as [v Hv]. congruence.
    + intros s. rewrite H. discriminate.
  - split; [exact H|]. split.
    + split; [intros _; apply HN; reflexivity|intros _; exact H].
    + intros s. destruct H as [obj ->]. discriminate.
Qed.

(** [load_dict] does not look at a key outside [load_keys]: writing such a
    key, "leaf_size" among them, or deleting it leaves the result as it
    was. *)
Theorem load_dict_ignores_unread_key (md : gmap string value) (k : string)
    (v : value) :
  k ∉ load_keys ->
  load_dict super_init (<[k := v]> md) = load_dict super_init md /\
  load_dict super_init (delete k md) = load_dict super_init md.
Proof.
  intros Hk. split; apply load_dict_agree; intros k' Hk'.
  - apply lookup_insert_ne. intros ->. contradiction.
  - apply lookup_delete_ne. intros ->. contradiction.
Qed.

(** Every attribute of a loaded instance but [leaf_size] is the entry of
    the mapping under the attribute's name. *)
Theorem load_dict_reads_each_attribute (md : gmap string value)
    (obj : KNeighborsClassifier) :
  load_dict super_init md = Ok obj ->
  (md !! "n_bits" = Some (n_bits obj) /\
   md !! "sklearn_model" = Some (sklearn_model obj) /\
   md !! "_is_fitted" = Some (_is_fitted obj) /\
   md !! "_is_compiled" = Some (_is_compiled obj) /\
   md !! "input_quantizers" = Some (input_quantizers obj) /\
   md !! "output_quantizers" = Some (output_quantizers obj) /\
   md !! "_weight_quantizer" = Some (_weight_quantizer obj) /\
   md !! "_q_X_fit_quantizer" = Some (_q_X_fit_quantizer obj) /\
   md !! "_q_X_fit" = Some (_q_X_fit obj) /\
   md !! "onnx_model_" = Some (onnx_model_ obj) /\
   md !! "post_processing_params" = Some (post_processing_params obj)) /\
  (md !! "n_neighbors" = Some (n_neighbors obj) /\
   md !! "weights" = Some (weights obj) /\
   md !! "algorithm" = Some (algorithm obj) /\
   md !! "p" = Some (p obj) /\
   md !! "metric" = Some (metric obj) /\
   md !! "metric_params" = Some (metric_params obj) /\
   md !! "n_jobs" = Some (n_jobs obj)) /\
  leaf_size obj = VInt 30.
Proof using super_init.
  intros H. destruct (load_dict_Ok_lookups md obj H) as [H1 H2].
  split; [exact H1|]. split; [exact H2|].
  exact (KNN_facts.load_dict_leaf_size super_init md obj H).
Qed.

(** [load_dict] does not check that the mapping comes from a fitted
    instance: it accepts a mapping whose "_weight_quantizer" is [None], and
    the instance it returns is one that [dump_dict] refuses. *)
Theorem load_dict_accepts_unfitted (md : gmap string value)
    (obj : KNeighborsClassifier) :
  load_dict super_init md = Ok obj ->
  md !! "_weight_quantizer" = Some VNone ->
  _weight_quantizer obj = VNone /\
  dump_dict msg obj = (Raise (AssertionError (msg obj)), obj).
Proof.
  intros H Hq.
  destruct (load_dict_Ok_lookups md obj H)
    as [(_ & _ & _ & _ & _ & _ & Hw & _) _].
  assert (_weight_quantizer obj = VNone) as E by congruence.
  split; [exact E|]. apply KNN_facts.dump_dict_unfitted. exact E.
Qed.

(** The round trip keeps the fitted state: the eleven Concrete ML
    attributes of the loaded instance, the quantizers and the quantized
    training set among them, are those of the dumped one, and the loaded
    instance can be dumped again. *)
Theorem load_dump_keeps_fitted_attributes (m : KNeighborsClassifier) :
  _weight_quantizer m <> VNone ->
  exists obj, load_dump super_init msg m = Ok obj /\
    mixin obj = mixin m /\
    _weight_quantizer obj = _weight_quantizer m /\
    _q_X_fit_quantizer obj = _q_X_fit_quantizer m /\
    _q_X_fit obj = _q_X_fit m /\
    input_quantizers obj = input_quantizers m /\
    output_quantizers obj = output_quantizers m /\
    _weight_quantizer obj <> VNone.
Proof.
  intros Hq. exists (set_leaf_size (VInt 30) m).
  split; [apply KNN_facts.load_dump_fitted, Hq|].
  cbn [set_leaf_size mixin]. repeat split; exact Hq.
Qed.

(** A second round trip loses nothing: the instance that one round trip
    returns is returned unchanged by the next. *)
Theorem load_dump_twice (m obj : KNeighborsClassifier) :
  load_dump super_init msg m = Ok obj ->
  load_dump super_init msg obj = Ok obj.
Proof.
  intros H.
  assert (_weight_quantizer m <> VNone) as Hq.
  { intros E. unfold load_dump in H.
    rewrite (KNN_facts.dump_dict_unfitted msg m E) in H. discriminate. }
  rewrite (KNN_facts.load_dump_fitted super_init msg m Hq) in H.
  injection H as <-.
  rewrite KNN_facts.load_dump_fitted by exact Hq. reflexivity.
Qed.

(** Loading and then dumping: when the mapping's "_weight_quantizer" is not
    [None], the loaded instance dumps a mapping that agrees with the loaded
    one on every key of [load_keys], holds 30 under "leaf_size", and the
    names of the two classes. *)
Theorem dump_dict_after_load_dict (md : gmap string value)
    (obj : KNeighborsClassifier) :
  load_dict super_init md = Ok obj ->
  md !! "_weight_quantizer" <> Some VNone ->
  exists md', dump_dict msg obj = (Ok md', obj) /\
    (forall k, k ∈ load_keys -> md' !! k = md !! k) /\
    md' !! "leaf_size" = Some (VInt 30) /\
    md' !! "cml_dumped_class_name" = Some (VStr "KNeighborsClassifier") /\
    md' !! "sklearn_model_class"
    = Some (VClass "sklearn.neighbors.KNeighborsClassifier").
Proof.
  intros H Hq.
  pose proof (load_dict_Ok_lookups md obj H) as L.
  pose proof (KNN_facts.load_dict_leaf_size super_init md obj H) as Hl.
  assert (_weight_quantizer obj <> VNone) as Hw.
  { intros E. apply Hq. rewrite <- E. tauto. }
  destruct (dump_dict_lookups obj Hw) as (md' & Hd & D1 & D2 & D3 & D4 & D5).
  exists md'. split; [exact Hd|]. split; [|split; [congruence|split]].
  - intros k Hk. unfold load_keys in Hk.
    repeat (apply elem_of_cons in Hk as [->|Hk]; [intuition congruence|]).
    apply elem_of_nil in Hk as [].
  - exact D4.
  - exact D5.
Qed.

End Facts.

Lemma leaf_size_not_in_load_keys : "leaf_size" ∉ load_keys.
Proof.
  intros H. unfold load_keys in H.
  repeat (apply elem_of_cons in H as [H|H]; [discriminate|]).
  apply elem_of_nil in H as [].
Qed.

Lemma load_dict_ignores_unread_key_witness :
  ("leaf_size" ∉ load_keys) /\
  (load_dict blank_attrs
     (<["leaf_size" := VInt 40]> KNN_facts.leaf40_metadata)
   = load_dict blank_attrs KNN_facts.leaf40_metadata) /\
  (load_dict blank_attrs (delete "leaf_size" KNN_facts.leaf40_metadata)
   = load_dict blank_attrs KNN_facts.leaf40_metadata).
Proof.
  split; [exact leaf_size_not_in_load_keys|].
  apply (load_dict_ignores_unread_key blank_attrs KNN_facts.leaf40_metadata
           "leaf_size" (VInt 40)).
  exact leaf_size_not_in_load_keys.
Defined.

Lemma load_leaf40_metadata :
  load_dict blank_attrs KNN_facts.leaf40_metadata = Ok leaf30.
Proof.
  unfold KNN_facts.leaf40_metadata, dump_dict, load_dict, getitem.
  cbn [is_none leaf40 fitted_attrs mixin _weight_quantizer fst].
  simplify_map_eq. reflexivity.
Qed.

Lemma leaf40_metadata_weight_quantizer :
  KNN_facts.leaf40_metadata !! "_weight_quantizer" = Some (VRef 3).
Proof.
  unfold KNN_facts.leaf40_metadata, dump_dict.
  cbn [is_none leaf40 fitted_attrs mixin _weight_quantizer fst].
  simplify_map_eq. reflexivity.
Qed.

Lemma load_dict_reads_each_attribute_witness :
  load_dict blank_attrs KNN_facts.leaf40_metadata = Ok leaf30 /\
  (KNN_facts.leaf40_metadata !! "n_bits" = Some (n_bits leaf30) /\
   KNN_facts.leaf40_metadata !! "sklearn_model"
   = Some (sklearn_model leaf30) /\
   KNN_facts.leaf40_metadata !! "_is_fitted" = Some (_is_fitted leaf30) /\
   KNN_facts.leaf40_metadata !! "_is_compiled"
   = Some (_is_compiled leaf30) /\
   KNN_facts.leaf40_metadata !! "input_quantizers"
   = Some (input_quantizers leaf30) /\
   KNN_facts.leaf40_metadata !! "output_quantizers"
   = Some (output_quantizers leaf30) /\
   KNN_facts.leaf40_metadata !! "_weight_quantizer"
   = Some (_weight_quantizer leaf30) /\
   KNN_facts.leaf40_metadata !! "_q_X_fit_quantizer"
   = Some (_q_X_fit_quantizer leaf30) /\
   KNN_facts.leaf40_metadata !! "_q_X_fit" = Some (_q_X_fit leaf30) /\
   KNN_facts.leaf40_metadata !! "onnx_model_" = Some (onnx_model_ leaf30) /\
   KNN_facts.leaf40_metadata !! "post_processing_params"
   = Some (post_processing_params leaf30)) /\
  (KNN_facts.leaf40_metadata !! "n_neighbors" = Some (n_neighbors leaf30) /\
   KNN_facts.leaf40_metadata !! "weights" = Some (weights leaf30) /\
   KNN_facts.leaf40_metadata !! "algorithm" = Some (algorithm leaf30) /\
   KNN_facts.leaf40_metadata !! "p" = Some (p leaf30) /\
   KNN_facts.leaf40_metadata !! "metric" = Some (metric leaf30) /\
   KNN_facts.leaf40_metadata !! "metric_params"
   = Some (metric_params leaf30) /\
   KNN_facts.leaf40_metadata !! "n_jobs" = Some (n_jobs leaf30)) /\
  leaf_size leaf30 = VInt 30.
Proof.
  split; [exact load_leaf40_metadata|].
  apply (load_dict_reads_each_attribute blank_attrs
           KNN_facts.leaf40_metadata leaf30).
  exact load_leaf40_metadata.
Defined.

(** The mapping that [leaf40] dumps, with [None] for the weight quantizer,
    and what [load_dict] makes of it. *)
Definition unfitted_metadata : gmap string value :=
  <["_weight_quantizer" := VNone]> KNN_facts.leaf40_metadata.

Definition unfitted30 : KNeighborsClassifier :=
  set__weight_quantizer VNone leaf30.

Lemma load_unfitted_metadata :
  load_dict blank_attrs unfitted_metadata = Ok unfitted30.
Proof.
  unfold unfitted_metadata, KNN_facts.leaf40_metadata, dump_dict, load_dict,
    getitem.
  cbn [is_none leaf40 fitted_attrs mixin _weight_quantizer fst].
  simplify_map_eq. reflexivity.
Qed.

Lemma load_dict_accepts_unfitted_witness :
  load_dict blank_attrs unfitted_metadata = Ok unfitted30 /\
  unfitted_metadata !! "_weight_quantizer" = Some VNone /\
  _weight_quantizer unfitted30 = VNone /\
  dump_dict not_fitted_message unfitted30
  = (Raise (AssertionError (not_fitted_message unfitted30)), unfitted30).
Proof.
  split; [exact load_unfitted_metadata|].
  split; [apply lookup_insert_eq|].
  apply (load_dict_accepts_unfitted blank_attrs not_fitted_message
           unfitted_metadata unfitted30).
  - exact load_unfitted_metadata.
  - apply lookup_insert_eq.
Defined.

Lemma load_dump_keeps_fitted_attributes_witness :
  (_weight_quantizer leaf40 <> VNone) /\
  exists obj, load_dump blank_attrs not_fitted_message leaf40 = Ok obj /\
    mixin obj = mixin leaf40 /\
    _weight_quantizer obj = _weight_quantizer leaf40 /\
    _q_X_fit_quantizer obj = _q_X_fit_quantizer leaf40 /\
    _q_X_fit obj = _q_X_fit leaf40 /\
    input_quantizers obj = input_quantizers leaf40 /\
    output_quantizers obj = output_quantizers leaf40 /\
    _weight_quantizer obj <> VNone.
Proof.
  split; [discriminate|].
  apply (load_dump_keeps_fitted_attributes blank_attrs not_fitted_message
           leaf40).
  discriminate.
Defined.

Lemma load_dump_leaf40 :
  load_dump blank_attrs not_fitted_message leaf40 = Ok leaf30.
Proof. apply KNN_facts.load_dump_fitted. discriminate. Qed.

Lemma load_dump_twice_witness :
  load_dump blank_attrs not_fitted_message leaf40 = Ok leaf30 /\
  load_dump blank_attrs not_fitted_message leaf30 = Ok leaf30.
Proof.
  split; [exact load_dump_leaf40|].
  apply (load_dump_twice blank_attrs not_fitted_message leaf40 leaf30).
  exact load_dump_leaf40.
Defined.

Lemma dump_dict_after_load_dict_witness :
  load_dict blank_attrs KNN_facts.leaf40_metadata = Ok leaf30 /\
  (KNN_facts.leaf40_metadata !! "_weight_quantizer" <> Some VNone) /\
  exists md', dump_dict not_fitted_message leaf30 = (Ok md', leaf30) /\
    (forall k, k ∈ load_keys -> md' !! k = KNN_facts.leaf40_metadata !! k) /\
    md' !! "leaf_size" = Some (VInt 30) /\
    md' !! "cml_dumped_class_name" = Some (VStr "KNeighborsClassifier") /\
    md' !! "sklearn_model_class"
    = Some (VClass "sklearn.neighbors.KNeighborsClassifier").
Proof.
  split; [exact load_leaf40_metadata|].
  split; [rewrite leaf40_metadata_weight_quantizer; discriminate|].
  apply (dump_dict_after_load_dict blank_attrs not_fitted_message
           KNN_facts.leaf40_metadata leaf30).
  - exact load_leaf40_metadata.
  - rewrite leaf40_metadata_weight_quantizer. discriminate.
Defined.


End KNN_load_facts.

(* ===================================================================== *)
(** * Properties of the datasets of the linear-model tests *)
(* ===================================================================== *)

Module TestLinearModels_facts.
Import TestLinearModels.

Lemma length_append (s1 s2 : string) :
  String.length (s1 +:+ s2) = (String.length s1 + String.length s2)%nat.
Proof.
  induction s1 as [|c s1 IH]; simpl; [reflexivity|]. f_equal. exact IH.
Qed.

Lemma append_neq_by_length (p1 p2 s : string) :
  String.length p1 <> String.length p2 -> p1 +:+ s <> p2 +:+ s.
Proof.
  intros Hl E. apply Hl. apply (f_equal String.length) in E.
  rewrite !length_append in E. lia.
Qed.

Lemma Forall_map_Rabs_nonneg (l : list R) :
  Forall (fun v => (0 <= v)%R) (map Rabs l).
Proof.
  induction l as [|v l IH]; cbn; constructor; [apply Rabs_pos|exact IH].
Qed.

Lemma Forall_map_Rabs_plus_1 (l : list R) :
  Forall (fun v => (1 <= v)%R)
    (map (fun v => (v + 1)%R) (map Rabs l)).
Proof.
  induction l as [|v l IH]; cbn; constructor; [|exact IH].
  pose proof (Rabs_pos v). lra.
Qed.

Section MakeRegression.

Variable sklearn_make_regression :
  forall (n_samples n_features n_informative n_targets : nat) (noise : Z)
         (random_state : Z), ndarray * ndarray.


End MakeRegression.

(** [get_datasets_regression] offers three single-target datasets for
    every model, and after them one with two targets exactly for the
    models outside [LinearSVR], [PoissonRegressor], [GammaRegressor] and
    [TweedieRegressor]; every dataset is generated for the model it is
    paired with, and all its features are informative. *)
Theorem get_datasets_regression_targets (model : estimator) :
  Forall (fun d => alg d = model /\
            exists n_features n_targets noise,
              load_data d
              = MakeRegression model n_features n_features n_targets noise)
    (get_datasets_regression model) /\
  (model ∈ [LinearSVR; PoissonRegressor; GammaRegressor; TweedieRegressor] ->
   (loader_n_targets ∘ load_data) <$> get_datasets_regression model
   = [Some 1; Some 1; Some 1]%nat) /\
  (model ∉ [LinearSVR; PoissonRegressor; GammaRegressor; TweedieRegressor] ->
   (loader_n_targets ∘ load_data) <$> get_datasets_regression model
   = [Some 1; Some 1; Some 1; Some 2]%nat).
Proof.
  unfold get_datasets_regression.
  destruct (decide (model ∉ [LinearSVR; PoissonRegressor; GammaRegressor;
                             TweedieRegressor])) as [H|H].
  - split; [|split; [contradiction|reflexivity]].
    repeat constructor; cbn; eauto.
  - split; [|split; [reflexivity|contradiction]].
    repeat constructor; cbn; eauto.
Qed.

(** The ids that a [get_datasets_] function gives for one model are
    pairwise distinct, whatever the name of the model's class. *)
Theorem dataset_ids_distinct (model : estimator) :
  NoDup (id <$> get_datasets_regression model) /\
  NoDup (id <$> get_datasets_classification model).
Proof.
  assert (forall p1 p2 : string,
            String.length p1 <> String.length p2 ->
            p1 +:+ __name__ model <> p2 +:+ __name__ model) as Hne
    by (intros; now apply append_neq_by_length).
  split.
  - unfold get_datasets_regression.
    destruct (decide _); cbn [fmap list_fmap app id];
      repeat (apply NoDup_cons; split;
              [rewrite ?not_elem_of_cons; repeat split;
               try (apply Hne; cbn; lia); apply not_elem_of_nil|]);
      apply NoDup_nil; exact I.
  - unfold get_datasets_classification. cbn [fmap list_fmap id].
    repeat (apply NoDup_cons; split;
            [rewrite ?not_elem_of_cons; repeat split;
             try (apply Hne; cbn; lia); apply not_elem_of_nil|]).
    apply NoDup_nil; exact I.
Qed.

(** The module-level loops finish without [IndexError];
    [multiple_models_datasets] gets 22 entries with pairwise distinct ids,
    of which the only one with two targets is for [LinearRegression];
    [models_datasets] gets one entry per model, in the order of the model
    lists, each the first dataset of its model and an entry of
    [multiple_models_datasets]. *)
Theorem module_datasets_parametrisation :
  module_datasets = Some (multiple_models_datasets, models_datasets) /\
  length multiple_models_datasets = 22%nat /\
  NoDup (id <$> multiple_models_datasets) /\
  alg <$> filter (fun d => loader_n_targets (load_data d) = Some 2%nat)
            multiple_models_datasets
  = [LinearRegression] /\
  alg <$> models_datasets = regression_models ++ classifier_models /\
  models_datasets
  = omap (head ∘ get_datasets_regression) regression_models
    ++ omap (head ∘ get_datasets_classification) classifier_models /\
  Forall (fun d => d ∈ multiple_models_datasets) models_datasets.
Proof.
  split; [vm_compute; reflexivity|].
  split; [vm_compute; reflexivity|].
  split; [apply (bool_decide_unpack _); vm_compute; reflexivity|].
  split; [vm_compute; reflexivity|].
  split; [vm_compute; reflexivity|].
  split; [vm_compute; reflexivity|].
  apply (bool_decide_unpack _). vm_compute. reflexivity.
Qed.

End TestLinearModels_facts.
